(** * The user-role resource: reconciling the roles of an existing user

    A shallow embedding of the lifecycle hooks of the user-role resource
    (package [security], [ResourceSecurityUserRole]): Read, Create, Update,
    Delete and Exists, together with the two pieces of set algebra that
    Delete and Exists compute inline.

    The hooks mutate a [*schema.ResourceData] and talk to the Nexus server
    through a client handle.  Both are threaded explicitly here: a hook takes
    the resource data and the client and returns the Go [error] (as an
    option), the resource data as the hook left it, and the client. *)

From stdpp Require Import base strings list gmap sets.

(** ** Data model *)

(** A Go [error] value.  The hooks never inspect one, they only hand it on. *)
Inductive error : Type := Err (msg : string).

#[global] Instance error_eq_dec : EqDecision error.
Proof. solve_decision. Defined.

Module security.

(** [security.User] of the Nexus client's schema package. *)
Record User : Type := mkUser {
  UserID : string;
  FirstName : string;
  LastName : string;
  EmailAddress : string;
  Password : string;
  Status : string;
  Source : string;
  Roles : list string
}.

#[global] Instance User_eq_dec : EqDecision User.
Proof. solve_decision. Defined.

End security.

Module nexus.

(** One call to the server, as it goes over the wire. *)
Inductive Request : Type :=
| ReqGet (id : string)
| ReqUpdate (id : string) (user : security.User).

#[global] Instance Request_eq_dec : EqDecision Request.
Proof. solve_decision. Defined.

(** The client handle together with the server behind it.
    - [users] is the server's user table;
    - [faults] scripts the transport: the n-th entry says whether the n-th
      call from now fails and with which error (no entry: the call goes
      through);
    - [requests] records the calls issued so far, oldest first. *)
Record NexusClient : Type := mkClient {
  users : gmap string security.User;
  faults : list (option error);
  requests : list Request
}.

(** The fault scripted for the next call, if any. *)
Definition next_fault (m : NexusClient) : option error :=
  mjoin (head (faults m)).

(** The client once [req] has gone out: the script moves on and the call is
    logged. *)
Definition sent (req : Request) (m : NexusClient) : NexusClient :=
  {| users := users m; faults := tail (faults m);
     requests := requests m ++ [req] |}.

(** The server replaces the whole user stored under [id]. *)
Definition stored (id : string) (user : security.User) (m : NexusClient) : NexusClient :=
  {| users := <[id := user]> (users m); faults := faults m;
     requests := requests m |}.

(** [client.Security.User.Get(id)]: the user, or nil when the server has no
    such user, or an error. *)
Definition Get (id : string) (m : NexusClient)
  : (option security.User * option error) * NexusClient :=
  match next_fault m with
  | Some e => ((None, Some e), sent (ReqGet id) m)
  | None => ((users m !! id, None), sent (ReqGet id) m)
  end.

(** [client.Security.User.Update(id, user)]: replaces the whole user. *)
Definition Update (id : string) (user : security.User) (m : NexusClient)
  : option error * NexusClient :=
  match next_fault m with
  | Some e => (Some e, sent (ReqUpdate id user) m)
  | None => (None, stored id user (sent (ReqUpdate id user) m))
  end.

End nexus.

Module hashcode.

(** CRC-32 (IEEE), bit by bit: the checksum behind the key under which a
    [schema.Set] files a member. *)
Definition shift (crc : Z) : Z :=
  if Z.odd crc then Z.lxor (Z.shiftr crc 1) 0xEDB88320%Z else Z.shiftr crc 1.

Definition update (crc : Z) (b : Ascii.ascii) : Z :=
  Nat.iter 8 shift (Z.lxor crc (Z.of_N (Ascii.N_of_ascii b))).

Definition ChecksumIEEE (s : string) : Z :=
  Z.lxor (foldl update 0xFFFFFFFF%Z (String.list_ascii_of_string s)) 0xFFFFFFFF%Z.

End hashcode.

Module schema.

(** [schema.ResourceData] restricted to the attributes of this resource.
    The ["roles"] attribute is a [schema.TypeSet] of strings. *)
Record ResourceData : Type := mkResourceData {
  rd_id : string;
  rd_userid : string;
  rd_firstname : string;
  rd_lastname : string;
  rd_email : string;
  rd_password : string;
  rd_roles : gset string;
  rd_status : string;
  rd_source : string
}.

(** [d.SetId(v)] *)
Definition SetId (v : string) (d : ResourceData) : ResourceData :=
  mkResourceData v (rd_userid d) (rd_firstname d) (rd_lastname d)
    (rd_email d) (rd_password d) (rd_roles d) (rd_status d) (rd_source d).

(** [d.Set("email", v)] and its siblings, one per attribute written. *)
Definition Set_email (v : string) (d : ResourceData) : ResourceData :=
  mkResourceData (rd_id d) (rd_userid d) (rd_firstname d) (rd_lastname d)
    v (rd_password d) (rd_roles d) (rd_status d) (rd_source d).

Definition Set_firstname (v : string) (d : ResourceData) : ResourceData :=
  mkResourceData (rd_id d) (rd_userid d) v (rd_lastname d)
    (rd_email d) (rd_password d) (rd_roles d) (rd_status d) (rd_source d).

Definition Set_lastname (v : string) (d : ResourceData) : ResourceData :=
  mkResourceData (rd_id d) (rd_userid d) (rd_firstname d) v
    (rd_email d) (rd_password d) (rd_roles d) (rd_status d) (rd_source d).

(** [d.Set("roles", slice)]: the slice is turned into a set, so duplicates
    collapse and the order is forgotten.  The framework's set files each
    member under a key computed from it ([set_key] below) and keeps the first
    member filed under a key; on slices whose roles have distinct keys that
    is the set of the slice's roles ([keyed_set_members]), and it is on such
    slices that the facts below speak about what [d.Set] keeps. *)
Definition Set_roles (v : list string) (d : ResourceData) : ResourceData :=
  mkResourceData (rd_id d) (rd_userid d) (rd_firstname d) (rd_lastname d)
    (rd_email d) (rd_password d) (list_to_set v) (rd_status d) (rd_source d).

Definition Set_status (v : string) (d : ResourceData) : ResourceData :=
  mkResourceData (rd_id d) (rd_userid d) (rd_firstname d) (rd_lastname d)
    (rd_email d) (rd_password d) (rd_roles d) v (rd_source d).

Definition Set_userid (v : string) (d : ResourceData) : ResourceData :=
  mkResourceData (rd_id d) v (rd_firstname d) (rd_lastname d)
    (rd_email d) (rd_password d) (rd_roles d) (rd_status d) (rd_source d).

Definition Set_source (v : string) (d : ResourceData) : ResourceData :=
  mkResourceData (rd_id d) (rd_userid d) (rd_firstname d) (rd_lastname d)
    (rd_email d) (rd_password d) (rd_roles d) (rd_status d) v.

(** [d.Get("roles")] followed by [List()] on the set: the members, each
    once, in the set's own order. *)
Definition Get_roles_List (d : ResourceData) : list string :=
  elements (rd_roles d).

(** The key under which a set of strings files [role]: the checksum of the
    role followed by a semicolon. *)
Definition set_key (role : string) : Z :=
  hashcode.ChecksumIEEE (String.append role ";").

(** No two different roles of the slice are filed under the same key. *)
Definition distinct_keys (roles : list string) : Prop :=
  ∀ r1 r2 : string,
    r1 ∈ roles → r2 ∈ roles → set_key r1 = set_key r2 → r1 = r2.

(** Adding a member to the framework's set: it is filed under its key
    unless that key is taken already. *)
Definition file_role (s : gmap Z string) (role : string) : gmap Z string :=
  match s !! set_key role with
  | Some _ => s
  | None => <[set_key role := role]> s
  end.

(** The framework's set built from a slice, one member after the other. *)
Definition keyed_set (roles : list string) : gmap Z string :=
  foldl file_role ∅ roles.

End schema.

Import security nexus schema.

(** What a hook hands back: its [error], the resource data and the client. *)
Definition hook_result : Type := option error * ResourceData * NexusClient.

(** A Go call either returns or panics. *)
Inductive completion (A : Type) : Type :=
| Returned (a : A)
| Panicked.
Arguments Returned {A} a.
Arguments Panicked {A}.

(** ** The set algebra computed inline by Delete and Exists *)

(** [m := make(map[string]struct{}); for _, role := range rs { m[role] = struct{}{} }] *)
Definition role_index (rs : list string) : gmap string () :=
  foldl (λ (mb : gmap string ()) (role : string), <[role := ()]> mb) ∅ rs.

(** Delete, lines 174-183: the roles of [remote] that are not keys of the
    index built from [desired], appended in the order they are met. *)
Definition computeRemainderAfterRemoval (desired remote : list string) : list string :=
  let mb := role_index desired in
  foldl (λ (roles : list string) (role : string),
           match mb !! role with
           | Some _ => roles
           | None => roles ++ [role]
           end) [] remote.

(** Exists, lines 218-222: the loop returns false at the first role that is
    not a key of the index. *)
Fixpoint all_found (exists_ : gmap string ()) (remote : list string) : bool :=
  match remote with
  | [] => true
  | role :: rest =>
      match exists_ !! role with
      | None => false
      | Some _ => all_found exists_ rest
      end
  end.

(** Exists, lines 210-224: the length test comes first and decides alone
    when the lengths differ. *)
Definition computeExistence (desired remote : list string) : bool :=
  if negb (length remote =? length desired) then false
  else all_found (role_index desired) remote.

(** ** The hooks *)

Definition getSecurityUserRoleFromResourceData (d : ResourceData) : User :=
  {| UserID := rd_userid d;
     FirstName := rd_firstname d;
     LastName := rd_lastname d;
     EmailAddress := rd_email d;
     Password := rd_password d;
     Status := rd_status d;
     Source := rd_source d;
     Roles := Get_roles_List d |}.

Definition resourceSecurityUserRoleRead (d : ResourceData) (m : NexusClient)
  : hook_result :=
  let '((user, err), m) := nexus.Get (rd_id d) m in
  match err with
  | Some _ => (err, d, m)
  | None =>
      match user with
      | None => (None, SetId "" d, m)
      | Some user =>
          let d := Set_email (EmailAddress user) d in
          let d := Set_firstname (FirstName user) d in
          let d := Set_lastname (LastName user) d in
          let d := Set_roles (Roles user) d in
          let d := Set_status (Status user) d in
          let d := Set_userid (UserID user) d in
          let d := Set_source (Source user) d in
          (None, d, m)
      end
  end.

Definition resourceSecurityUserRoleExists (d : ResourceData) (m : NexusClient)
  : (bool * option error) * NexusClient :=
  let '((apiUser, err), m) := nexus.Get (rd_id d) m in
  match apiUser, err with
  | Some apiUser, None =>
      let stateUser := getSecurityUserRoleFromResourceData d in
      ((computeExistence (Roles stateUser) (Roles apiUser), err), m)
  | _, _ => ((false, err), m)
  end.

Section Hooks.

(** [d.HasChange(key)] is answered by the resource framework from the plan
    it holds for the resource; it is taken as given. *)
Variable HasChange : ResourceData → string → bool.

(** [resourceSecurityUserRead], the read hook of the sibling user resource
    of the same package, which Create ends with; it is taken as given. *)
Variable resourceSecurityUserRead : ResourceData → NexusClient → hook_result.

Definition resourceSecurityUserRoleCreate (d : ResourceData) (m : NexusClient)
  : hook_result :=
  let d := SetId (rd_userid d) d in
  let '(err, d, m) := resourceSecurityUserRoleRead d m in
  match err with
  | Some _ => (err, d, m)
  | None =>
      let user := getSecurityUserRoleFromResourceData d in
      match nexus.Update (rd_id d) user m with
      | (Some e, m) => (Some e, d, m)
      | (None, m) =>
          let d := SetId (UserID user) d in
          resourceSecurityUserRead d m
      end
  end.

Definition resourceSecurityUserRoleUpdate (d : ResourceData) (m : NexusClient)
  : hook_result :=
  if HasChange d "roles" then
    let user := getSecurityUserRoleFromResourceData d in
    match nexus.Update (rd_id d) user m with
    | (Some e, m) => (Some e, d, m)
    | (None, m) => resourceSecurityUserRoleRead d m
    end
  else resourceSecurityUserRoleRead d m.

Definition resourceSecurityUserRoleDelete (d : ResourceData) (m : NexusClient)
  : completion hook_result :=
  let '((apiUser, err), m) := nexus.Get (rd_id d) m in
  match err with
  | Some _ => Returned (err, d, m)
  | None =>
      let stateUser := getSecurityUserRoleFromResourceData d in
      match apiUser with
      | None => Panicked (* apiUser.Roles on a nil pointer *)
      | Some apiUser =>
          let roles := computeRemainderAfterRemoval (Roles stateUser) (Roles apiUser) in
          let d := Set_roles roles d in
          match resourceSecurityUserRoleUpdate d m with
          | (Some e, d, m) => Returned (Some e, d, m)
          | (None, d, m) => Returned (None, SetId "" d, m)
          end
      end
  end.

End Hooks.

(** ** Fixtures: one managed user on a small server *)

Definition jdoe (roles : list string) : User :=
  {| UserID := "jdoe"; FirstName := "John"; LastName := "Doe";
     EmailAddress := "jdoe@example.org"; Password := ""; Status := "active";
     Source := "default"; Roles := roles |}.

(** The resource data of the role resource for jdoe, declaring [roles]. *)
Definition jdoe_data (roles : list string) : ResourceData :=
  {| rd_id := "jdoe"; rd_userid := "jdoe"; rd_firstname := ""; rd_lastname := "";
     rd_email := ""; rd_password := ""; rd_roles := list_to_set roles;
     rd_status := ""; rd_source := "" |}.

(** A server that knows jdoe with the given roles, a transport script and
    no call issued yet. *)
Definition server_with (roles : list string) (script : list (option error))
  : NexusClient :=
  {| users := {[ "jdoe"%string := jdoe roles ]}; faults := script; requests := [] |}.

(** A server that does not know jdoe. *)
Definition server_without (script : list (option error)) : NexusClient :=
  {| users := ∅; faults := script; requests := [] |}.

Definition timeout : error := Err "i/o timeout".

(** ** The lifecycle rules as the specification words them

    These three predicates follow the specification's sentences, not the
    code; the hooks are compared with them further down. *)

(** "Update, triggered only when Desired Subset changed: recompute the full
    replacement set using the current remote read and write back": the
    hook's first call re-reads the user, its second call writes Foreign
    Remainder ∪ New Desired Subset. *)
Definition spec_update_merges_fresh_read
    (HasChange : ResourceData → string → bool) (d : ResourceData) (m : NexusClient) : Prop :=
  ∀ apiUser : User,
    HasChange d "roles" = true →
    users m !! rd_id d = Some apiUser → faults m = [] →
    ∃ (written : User) (rest : list Request),
      requests (resourceSecurityUserRoleUpdate HasChange d m).2
      = requests m ++ ReqGet (rd_id d) :: ReqUpdate (rd_id d) written :: rest
      ∧ list_to_set (Roles written)
        = (list_to_set (Roles apiUser) ∖ rd_roles d) ∪ rd_roles d.

(** "Create: fetch the current remote set, union with Desired Subset, write
    back full replacement". *)
Definition spec_create_writes_union
    (userRead : ResourceData → NexusClient → hook_result)
    (d : ResourceData) (m : NexusClient) : Prop :=
  ∀ apiUser : User,
    users m !! rd_userid d = Some apiUser → faults m = [] →
    ∃ written : User,
      ReqUpdate (rd_userid d) written
        ∈ requests (resourceSecurityUserRoleCreate userRead d m).2
      ∧ list_to_set (Roles written)
        = list_to_set (Roles apiUser) ∪ rd_roles d.


(** The resource data after Read found [user]: lines 116-122. *)
Definition refreshed (user : User) (d : ResourceData) : ResourceData :=
  Set_source (Source user)
    (Set_userid (UserID user)
       (Set_status (Status user)
          (Set_roles (Roles user)
             (Set_lastname (LastName user)
                (Set_firstname (FirstName user)
                   (Set_email (EmailAddress user) d)))))).

(** Two answers the framework may give to [HasChange]. *)
Definition changed : ResourceData → string → bool := λ _ _, true.
Definition unchanged : ResourceData → string → bool := λ _ _, false.

(** ** Facts about the set algebra *)

Section SetAlgebra.

Implicit Types (desired remote : list string) (role : string).

Lemma role_index_acc (mb : gmap string ()) (rs : list string) role :
  is_Some (foldl (λ (mb : gmap string ()) (r : string), <[r := ()]> mb) mb rs !! role)
  ↔ is_Some (mb !! role) ∨ role ∈ rs.
Proof.
  revert mb. induction rs as [|r rs IH]; intros mb; simpl.
  - rewrite elem_of_nil. tauto.
  - rewrite IH, elem_of_cons, lookup_insert_is_Some.
    destruct (decide (r = role)) as [->|Hne]; [tauto|].
    split; [intros [[?|[_ ?]]|?]|intros [?|[?|?]]]; subst; tauto.
Qed.

(** The index has exactly the listed roles as keys. *)
Lemma role_index_is_Some desired role :
  is_Some (role_index desired !! role) ↔ role ∈ desired.
Proof.
  unfold role_index. rewrite role_index_acc, lookup_empty, is_Some_alt. tauto.
Qed.

Lemma role_index_None desired role :
  role_index desired !! role = None ↔ role ∉ desired.
Proof. rewrite <- role_index_is_Some, eq_None_not_Some. tauto. Qed.

Lemma remainder_acc (mb : gmap string ()) (acc : list string) remote :
  foldl (λ (roles : list string) (r : string),
           match mb !! r with Some _ => roles | None => roles ++ [r] end) acc remote
  = acc ++ filter (λ r, mb !! r = None) remote.
Proof.
  revert acc. induction remote as [|r remote IH]; intros acc; simpl.
  - by rewrite app_nil_r.
  - rewrite IH. destruct (mb !! r) as [[]|] eqn:Hr.
    + rewrite filter_cons_False; [done|]. by rewrite Hr.
    + rewrite filter_cons_True by done. by rewrite <- app_assoc.
Qed.

(** The two loops of Delete amount to filtering [remote]. *)
Lemma remainder_filter desired remote :
  computeRemainderAfterRemoval desired remote = filter (.∉ desired) remote.
Proof.
  unfold computeRemainderAfterRemoval. rewrite remainder_acc. simpl.
  apply list_filter_iff. intros r. apply role_index_None.
Qed.

Lemma elem_of_remainder desired remote role :
  role ∈ computeRemainderAfterRemoval desired remote ↔ role ∈ remote ∧ role ∉ desired.
Proof. rewrite remainder_filter, list_elem_of_filter. tauto. Qed.

Lemma all_found_Forall desired remote :
  all_found (role_index desired) remote = true ↔ Forall (.∈ desired) remote.
Proof.
  induction remote as [|r remote IH]; simpl.
  - split; [constructor|done].
  - rewrite Forall_cons, <- IH. destruct (role_index desired !! r) eqn:Hr.
    + assert (r ∈ desired) by (apply role_index_is_Some; eauto). tauto.
    + apply role_index_None in Hr. split; [done|tauto].
Qed.

(** What the existence test decides, on arbitrary slices. *)
Lemma computeExistence_true desired remote :
  computeExistence desired remote = true
  ↔ length remote = length desired ∧ Forall (.∈ desired) remote.
Proof.
  unfold computeExistence.
  destruct (Nat.eqb_spec (length remote) (length desired)) as [Hl|Hl]; simpl.
  - rewrite all_found_Forall. tauto.
  - split; [done|tauto].
Qed.

(** When the remote slice has no repeated role, passing the test means
    being a rearrangement of the desired slice. *)
Lemma computeExistence_Permutation desired remote :
  NoDup remote →
  computeExistence desired remote = true ↔ remote ≡ₚ desired.
Proof.
  intros Hnd. rewrite computeExistence_true. split.
  - intros [Hl Hall]. apply submseteq_length_Permutation; [|lia].
    apply NoDup_submseteq; [done|]. by apply Forall_forall.
  - intros Hp. split; [by rewrite Hp|].
    apply Forall_forall. intros r Hr. by rewrite <- Hp.
Qed.

End SetAlgebra.

(** ** The remainder after removal (Delete, lines 174-183) *)

(** C1. For every desired slice D and remote slice R the set-difference
    block of the delete hook returns exactly R without the members of D:
    it is R filtered, in R's order, by "not a member of D"; so a role is in
    the result if and only if it is in R and not in D. *)
Theorem remainder_is_remote_minus_desired (D R : list string) :
  computeRemainderAfterRemoval D R = filter (.∉ D) R
  ∧ ∀ role : string,
      role ∈ computeRemainderAfterRemoval D R ↔ role ∈ R ∧ role ∉ D.
Proof.
  split; [apply remainder_filter|].
  intros role. apply elem_of_remainder.
Qed.

(** C8. Removing the same desired slice a second time changes nothing. *)
Theorem remainder_idempotent (D R : list string) :
  computeRemainderAfterRemoval D (computeRemainderAfterRemoval D R)
  = computeRemainderAfterRemoval D R.
Proof.
  rewrite !remainder_filter.
  induction R as [|r R IH]; [done|].
  destruct (decide (r ∉ D)) as [Hr|Hr].
  - rewrite !(filter_cons_True (.∉ D)) by done. by f_equal.
  - by rewrite (filter_cons_False (.∉ D)) by done.
Qed.

(** Scenarios 3 and 4 of the specification. *)
Example remainder_scenario_3 :
  computeRemainderAfterRemoval ["dev"%string] ["admin"; "dev"; "qa"]%string
  = ["admin"; "qa"]%string.
Proof. reflexivity. Qed.

Example remainder_scenario_4 :
  computeRemainderAfterRemoval [] ["admin"%string] = ["admin"%string].
Proof. reflexivity. Qed.

(** ** The existence test (Exists, lines 210-224) *)

(** C9. On slices without repeated roles the existence test does not
    depend on which of the two is taken as desired and which as remote. *)
Theorem computeExistence_symmetric (A B : list string) :
  NoDup A → NoDup B → computeExistence A B = computeExistence B A.
Proof.
  intros HA HB.
  pose proof (computeExistence_Permutation A B HB) as HAB.
  pose proof (computeExistence_Permutation B A HA) as HBA.
  destruct (computeExistence A B), (computeExistence B A); try done.
  - assert (B ≡ₚ A) as Hp by (by apply HAB).
    symmetry in Hp. apply HBA in Hp. done.
  - assert (A ≡ₚ B) as Hp by (by apply HBA).
    symmetry in Hp. apply HAB in Hp. done.
Qed.

Lemma computeExistence_symmetric_witness :
  NoDup ["admin"; "dev"]%string ∧ NoDup ["dev"; "admin"]%string
  ∧ computeExistence ["admin"; "dev"]%string ["dev"; "admin"]%string
    = computeExistence ["dev"; "admin"]%string ["admin"; "dev"]%string.
Proof.
  assert (NoDup ["admin"; "dev"]%string) as HA
    by (apply (bool_decide_unpack _); vm_compute; exact I).
  assert (NoDup ["dev"; "admin"]%string) as HB
    by (apply (bool_decide_unpack _); vm_compute; exact I).
  split; [exact HA|]. split; [exact HB|].
  exact (computeExistence_symmetric _ _ HA HB).
Defined.

(** Scenarios 1 and 2 of the specification. *)
Example existence_scenario_1 :
  computeExistence ["admin"; "dev"]%string ["admin"; "dev"]%string = true.
Proof. reflexivity. Qed.

Example existence_scenario_2 :
  computeExistence ["admin"%string] ["admin"; "dev"]%string = false.
Proof. reflexivity. Qed.

(** The remote slice is a Go slice, not a set: were the server ever to send
    a role twice, the length test and the membership loop would both pass
    although a desired role is missing remotely. *)
Remark existence_repeated_remote_role :
  computeExistence ["admin"; "dev"]%string ["admin"; "admin"]%string = true.
Proof. reflexivity. Qed.

(** ** The exists hook *)

(** C2. When the fetch finds the user and the remote roles are a set (no
    role listed twice), the exists hook answers true exactly when the remote
    roles and the desired roles have the same number of members and the same
    members, whatever their order; and a difference in number alone makes
    the answer false. *)
Theorem exists_iff_set_equal (d : ResourceData) (m m' : NexusClient) (apiUser : User) :
  nexus.Get (rd_id d) m = ((Some apiUser, None), m') →
  NoDup (Roles apiUser) →
  ∃ verdict : bool,
    resourceSecurityUserRoleExists d m = ((verdict, None), m')
    ∧ (verdict = true ↔
         length (Roles apiUser) = size (rd_roles d)
         ∧ list_to_set (Roles apiUser) = rd_roles d)
    ∧ (length (Roles apiUser) ≠ size (rd_roles d) → verdict = false).
Proof.
  intros HGet Hnd.
  exists (computeExistence (Get_roles_List d) (Roles apiUser)).
  split; [|split].
  - unfold resourceSecurityUserRoleExists. by rewrite HGet.
  - rewrite computeExistence_Permutation by done. unfold Get_roles_List. split.
    + intros Hp. split.
      * by rewrite Hp.
      * apply set_eq. intros role.
        by rewrite elem_of_list_to_set, Hp, elem_of_elements.
    + intros [_ Heq]. apply NoDup_Permutation; [done|apply NoDup_elements|].
      intros role. by rewrite elem_of_elements, <- Heq, elem_of_list_to_set.
  - intros Hlen.
    destruct (computeExistence _ _) eqn:Hc; [|done].
    apply computeExistence_true in Hc as [Hl _]. done.
Qed.

Lemma exists_iff_set_equal_witness :
  ∃ verdict : bool,
    resourceSecurityUserRoleExists (jdoe_data ["admin"; "dev"]%string)
      (server_with ["dev"; "admin"]%string []) =
      ((verdict, None),
       {| users := {[ "jdoe"%string := jdoe ["dev"; "admin"]%string ]};
          faults := []; requests := [ReqGet "jdoe"] |})
    ∧ (verdict = true ↔
         length ["dev"; "admin"]%string
         = size (rd_roles (jdoe_data ["admin"; "dev"]%string))
         ∧ list_to_set ["dev"; "admin"]%string
           = rd_roles (jdoe_data ["admin"; "dev"]%string))
    ∧ (length ["dev"; "admin"]%string
       ≠ size (rd_roles (jdoe_data ["admin"; "dev"]%string)) → verdict = false).
Proof.
  apply (exists_iff_set_equal (jdoe_data ["admin"; "dev"]%string)
           (server_with ["dev"; "admin"]%string []) _
           (jdoe ["dev"; "admin"]%string)).
  - reflexivity.
  - apply (bool_decide_unpack _). vm_compute. exact I.
Defined.

(** C6. When the fetch reports that the user does not exist (nil user, nil
    error), the exists hook answers false with a nil error, whatever the
    desired roles are, the empty set included. *)
Theorem exists_not_found (d : ResourceData) (m m' : NexusClient) :
  nexus.Get (rd_id d) m = ((None, None), m') →
  resourceSecurityUserRoleExists d m = ((false, None), m').
Proof.
  intros HGet. unfold resourceSecurityUserRoleExists. by rewrite HGet.
Qed.

Lemma exists_not_found_witness :
  resourceSecurityUserRoleExists (jdoe_data []) (server_without [])
  = ((false, None), {| users := ∅; faults := []; requests := [ReqGet "jdoe"] |}).
Proof.
  apply (exists_not_found (jdoe_data []) (server_without [])). reflexivity.
Defined.

(** C10. When the fetch inside the exists hook fails, the hook answers false
    together with that very error; and it never answers true together with
    an error. *)
Theorem exists_error_is_false (d : ResourceData) (m : NexusClient) :
  (∀ (e : error), (nexus.Get (rd_id d) m).1.2 = Some e →
     (resourceSecurityUserRoleExists d m).1 = (false, Some e))
  ∧ (∀ (err : option error),
       (resourceSecurityUserRoleExists d m).1 = (true, err) → err = None).
Proof.
  unfold resourceSecurityUserRoleExists.
  destruct (nexus.Get (rd_id d) m) as [[apiUser err] m']. simpl. split.
  - intros e ->. by destruct apiUser.
  - intros err'. destruct apiUser, err; simpl; congruence.
Qed.

Lemma exists_error_is_false_witness :
  (resourceSecurityUserRoleExists (jdoe_data ["admin"%string])
     (server_with ["admin"%string] [Some timeout])).1
  = (false, Some timeout).
Proof.
  exact (proj1 (exists_error_is_false (jdoe_data ["admin"%string])
                  (server_with ["admin"%string] [Some timeout]))
           timeout eq_refl).
Defined.

Example exists_error_timeout :
  resourceSecurityUserRoleExists (jdoe_data ["admin"%string])
    (server_with ["admin"%string] [Some timeout])
  = ((false, Some timeout),
     {| users := {[ "jdoe"%string := jdoe ["admin"%string] ]};
        faults := []; requests := [ReqGet "jdoe"] |}).
Proof. reflexivity. Qed.

(** ** Facts about the client and the read hook *)



(** The three ways Read can go: lines 106-124. *)
Lemma Read_cases (d : ResourceData) (m : NexusClient) :
  match next_fault m with
  | Some e =>
      resourceSecurityUserRoleRead d m = (Some e, d, sent (ReqGet (rd_id d)) m)
  | None =>
      match users m !! rd_id d with
      | None =>
          resourceSecurityUserRoleRead d m
          = (None, SetId "" d, sent (ReqGet (rd_id d)) m)
      | Some user =>
          resourceSecurityUserRoleRead d m
          = (None, refreshed user d, sent (ReqGet (rd_id d)) m)
      end
  end.
Proof.
  unfold resourceSecurityUserRoleRead, nexus.Get.
  destruct (next_fault m); [done|]. simpl.
  by destruct (users m !! rd_id d).
Qed.

(** Read hands on the store's error and nothing else, leaves the resource
    data alone when it fails, never writes to the server and issues exactly
    one fetch. *)
Lemma Read_inv (d d' : ResourceData) (m m' : NexusClient) (err : option error) :
  resourceSecurityUserRoleRead d m = (err, d', m') →
  m' = sent (ReqGet (rd_id d)) m
  ∧ ∀ e : error, err = Some e → next_fault m = Some e ∧ d' = d.
Proof.
  pose proof (Read_cases d m) as H.
  destruct (next_fault m) as [e0|].
  - rewrite H. intros [= <- <- <-]. split; [done|]. by intros e [= ->].
  - destruct (users m !! rd_id d); rewrite H; intros [= <- <- <-];
      (split; [done|]); intros e; discriminate.
Qed.

(** The roles of the user built from the resource data are the declared
    roles, each once. *)
Lemma elem_of_state_roles (d : ResourceData) (role : string) :
  role ∈ Roles (getSecurityUserRoleFromResourceData d) ↔ role ∈ rd_roles d.
Proof. simpl. unfold Get_roles_List. apply elem_of_elements. Qed.

(** The first call Update issues when the roles changed is the write. *)
Lemma Update_changed_cases (HasChange : ResourceData → string → bool)
    (d : ResourceData) (m : NexusClient) :
  HasChange d "roles" = true →
  let user := getSecurityUserRoleFromResourceData d in
  match next_fault m with
  | Some e =>
      resourceSecurityUserRoleUpdate HasChange d m
      = (Some e, d, sent (ReqUpdate (rd_id d) user) m)
  | None =>
      resourceSecurityUserRoleUpdate HasChange d m
      = resourceSecurityUserRoleRead d
          (stored (rd_id d) user (sent (ReqUpdate (rd_id d) user) m))
  end.
Proof.
  intros Hc. unfold resourceSecurityUserRoleUpdate, nexus.Update. rewrite Hc.
  by destruct (next_fault m).
Qed.


(** ** The update hook *)

(** What Update does on the fixture: the write goes out first and carries
    the local roles only; jdoe's remote role "admin" is gone afterwards. *)
Example update_trace :
  let r := resourceSecurityUserRoleUpdate changed
             (jdoe_data ["dev"; "qa"]%string)
             (server_with ["admin"; "dev"]%string []) in
  r.1.1 = None
  ∧ requests r.2
    = [ReqUpdate "jdoe" (getSecurityUserRoleFromResourceData
                           (jdoe_data ["dev"; "qa"]%string));
       ReqGet "jdoe"]
  ∧ list_to_set (Roles (getSecurityUserRoleFromResourceData
                          (jdoe_data ["dev"; "qa"]%string)))
    = ({[ "dev"%string; "qa"%string ]} : gset string).
Proof.
  split; [reflexivity|]. split; [reflexivity|].
  simpl. unfold Get_roles_List. rewrite list_to_set_elements_L. simpl.
  set_solver.
Qed.

(** C3, as stated, fails: with "roles" changed, jdoe known to the server
    with roles admin and dev, and dev and qa declared, the first call of the
    update hook is the write, not a fetch. *)
Lemma update_does_not_merge_fresh_read :
  ¬ spec_update_merges_fresh_read changed
      (jdoe_data ["dev"; "qa"]%string) (server_with ["admin"; "dev"]%string []).
Proof.
  intros Hspec.
  destruct (Hspec (jdoe ["admin"; "dev"]%string))
    as (written & rest & Hreq & _); [reflexivity..|].
  destruct update_trace as (_ & Htrace & _). simpl in Htrace.
  rewrite Htrace in Hreq. simpl in Hreq. discriminate Hreq.
Qed.

(** C3, amended.  For every update invocation in which the roles changed,
    the first call of the hook is the full-replacement write; the user it
    writes is built from the local resource data alone, so its roles are
    exactly the declared roles.  When that write fails the hook returns its
    error at once, with the resource data and the server's users untouched
    and no fetch issued.  When it goes through, the server holds the written
    user, whatever roles it held before, and the hook goes on as the read
    hook does on that server: it issues exactly one fetch, after the write,
    and returns what the read returns. *)
Theorem update_writes_local_roles_first
    (HasChange : ResourceData → string → bool) (d : ResourceData) (m : NexusClient) :
  HasChange d "roles" = true →
  (∀ role : string,
     role ∈ Roles (getSecurityUserRoleFromResourceData d) ↔ role ∈ rd_roles d)
  ∧ (∀ e : error, next_fault m = Some e →
       resourceSecurityUserRoleUpdate HasChange d m
       = (Some e, d,
          {| users := users m; faults := tail (faults m);
             requests := requests m
                         ++ [ReqUpdate (rd_id d)
                               (getSecurityUserRoleFromResourceData d)] |}))
  ∧ (next_fault m = None →
     ∃ written_to : NexusClient,
       users written_to
       = <[rd_id d := getSecurityUserRoleFromResourceData d]> (users m)
       ∧ requests written_to
         = requests m
           ++ [ReqUpdate (rd_id d) (getSecurityUserRoleFromResourceData d)]
       ∧ resourceSecurityUserRoleUpdate HasChange d m
         = resourceSecurityUserRoleRead d written_to
       ∧ users (resourceSecurityUserRoleUpdate HasChange d m).2
         = <[rd_id d := getSecurityUserRoleFromResourceData d]> (users m)
       ∧ requests (resourceSecurityUserRoleUpdate HasChange d m).2
         = requests m
           ++ [ReqUpdate (rd_id d) (getSecurityUserRoleFromResourceData d);
               ReqGet (rd_id d)]).
Proof.
  intros Hc. split; [apply elem_of_state_roles|].
  pose proof (Update_changed_cases HasChange d m Hc) as H. simpl in H.
  split.
  - intros e Hf. rewrite Hf in H. exact H.
  - intros Hf. rewrite Hf in H. eexists. split; [|split; [|split; [exact H|]]].
    + reflexivity.
    + reflexivity.
    + rewrite H.
      destruct (resourceSecurityUserRoleRead d _) as [[err d'] m'] eqn:HRead.
      apply Read_inv in HRead as [-> _]. split; [done|].
      simpl. by rewrite <- app_assoc.
Qed.

Lemma update_writes_local_roles_first_witness :
  changed (jdoe_data ["dev"; "qa"]%string) "roles" = true
  ∧ (∀ role : string,
       role ∈ Roles (getSecurityUserRoleFromResourceData
                       (jdoe_data ["dev"; "qa"]%string))
       ↔ role ∈ rd_roles (jdoe_data ["dev"; "qa"]%string))
  ∧ (∀ e : error,
       next_fault (server_with ["admin"; "dev"]%string []) = Some e →
       resourceSecurityUserRoleUpdate changed (jdoe_data ["dev"; "qa"]%string)
         (server_with ["admin"; "dev"]%string [])
       = (Some e, jdoe_data ["dev"; "qa"]%string,
          {| users := users (server_with ["admin"; "dev"]%string []);
             faults := tail (faults (server_with ["admin"; "dev"]%string []));
             requests :=
               requests (server_with ["admin"; "dev"]%string [])
               ++ [ReqUpdate (rd_id (jdoe_data ["dev"; "qa"]%string))
                     (getSecurityUserRoleFromResourceData
                        (jdoe_data ["dev"; "qa"]%string))] |}))
  ∧ (next_fault (server_with ["admin"; "dev"]%string []) = None →
     ∃ written_to : NexusClient,
       users written_to
       = <[rd_id (jdoe_data ["dev"; "qa"]%string) :=
             getSecurityUserRoleFromResourceData (jdoe_data ["dev"; "qa"]%string)]>
           (users (server_with ["admin"; "dev"]%string []))
       ∧ requests written_to
         = requests (server_with ["admin"; "dev"]%string [])
           ++ [ReqUpdate (rd_id (jdoe_data ["dev"; "qa"]%string))
                 (getSecurityUserRoleFromResourceData
                    (jdoe_data ["dev"; "qa"]%string))]
       ∧ resourceSecurityUserRoleUpdate changed (jdoe_data ["dev"; "qa"]%string)
           (server_with ["admin"; "dev"]%string [])
         = resourceSecurityUserRoleRead (jdoe_data ["dev"; "qa"]%string) written_to
       ∧ users (resourceSecurityUserRoleUpdate changed
                  (jdoe_data ["dev"; "qa"]%string)
                  (server_with ["admin"; "dev"]%string [])).2
         = <[rd_id (jdoe_data ["dev"; "qa"]%string) :=
               getSecurityUserRoleFromResourceData (jdoe_data ["dev"; "qa"]%string)]>
             (users (server_with ["admin"; "dev"]%string []))
       ∧ requests (resourceSecurityUserRoleUpdate changed
                     (jdoe_data ["dev"; "qa"]%string)
                     (server_with ["admin"; "dev"]%string [])).2
         = requests (server_with ["admin"; "dev"]%string [])
           ++ [ReqUpdate (rd_id (jdoe_data ["dev"; "qa"]%string))
                 (getSecurityUserRoleFromResourceData
                    (jdoe_data ["dev"; "qa"]%string));
               ReqGet (rd_id (jdoe_data ["dev"; "qa"]%string))]).
Proof.
  split; [reflexivity|].
  apply (update_writes_local_roles_first changed
           (jdoe_data ["dev"; "qa"]%string)
           (server_with ["admin"; "dev"]%string [])).
  reflexivity.
Defined.

(** ** The create hook *)

(** What Create does on the fixture, up to the final read of the user
    resource: it fetches jdoe, writes jdoe back with the roles just fetched,
    and the declared role "dev" is not part of the write. *)
Example create_trace (userRead : ResourceData → NexusClient → hook_result) :
  resourceSecurityUserRoleCreate userRead
    (jdoe_data ["dev"%string]) (server_with ["admin"%string] [])
  = userRead (refreshed (jdoe ["admin"%string]) (jdoe_data ["dev"%string]))
      {| users := {[ "jdoe"%string := jdoe ["admin"%string] ]};
         faults := [];
         requests := [ReqGet "jdoe"; ReqUpdate "jdoe" (jdoe ["admin"%string])] |}.
Proof. reflexivity. Qed.

(** The specification's reading of create does not hold of the hook: with
    jdoe holding "admin" remotely and "dev" declared, no write of Create
    carries the union of the two. *)
Lemma create_does_not_write_union :
  ¬ ∀ userRead : ResourceData → NexusClient → hook_result,
      spec_create_writes_union userRead
        (jdoe_data ["dev"%string]) (server_with ["admin"%string] []).
Proof.
  intros Hspec.
  destruct (Hspec (λ d m, (None, d, m)) (jdoe ["admin"%string]))
    as (written & Hin & Hroles); [reflexivity|reflexivity|].
  rewrite create_trace in Hin. simpl in Hin.
  apply elem_of_cons in Hin as [Hin|Hin]; [discriminate Hin|].
  apply list_elem_of_singleton in Hin. injection Hin as ->.
  assert ("dev"%string ∈ (list_to_set (Roles (jdoe ["admin"%string])) : gset string))
    as Hdev by (rewrite Hroles; simpl; set_solver).
  simpl in Hdev. set_solver.
Qed.

(** C4.  The create hook run for jdoe, who holds "admin" on the server,
    with "dev" declared and a transport that does not fail: Read, called
    first, replaces the declared roles in the resource data by the fetched
    ones, and the write that follows is built from those data.  The one
    write of the hook therefore carries "admin" alone; the declared "dev"
    never reaches the server, where the union of the two was due. *)
Theorem create_drops_declared_roles
    (userRead : ResourceData → NexusClient → hook_result) :
  ∃ (d' : ResourceData) (m' : NexusClient),
    resourceSecurityUserRoleCreate userRead
      (jdoe_data ["dev"%string]) (server_with ["admin"%string] [])
    = userRead d' m'
    ∧ requests m' = [ReqGet "jdoe"; ReqUpdate "jdoe" (jdoe ["admin"%string])]
    ∧ users m' !! "jdoe"%string = Some (jdoe ["admin"%string])
    ∧ ("dev"%string ∈ rd_roles (jdoe_data ["dev"%string]))
    ∧ ("dev"%string ∉ Roles (jdoe ["admin"%string]))
    ∧ ("dev"%string ∉ rd_roles d').
Proof.
  rewrite create_trace. eexists _, _. split; [reflexivity|].
  split; [reflexivity|]. split; [reflexivity|].
  split; [simpl; rewrite elem_of_union, elem_of_singleton; by left|].
  assert ("dev"%string ≠ "admin"%string) as Hne by discriminate.
  split.
  - simpl. rewrite list_elem_of_singleton. exact Hne.
  - unfold refreshed. simpl.
    rewrite elem_of_union, elem_of_singleton, elem_of_empty. tauto.
Qed.

(** ** The delete hook *)

(** Scenario 5 of the specification: with "dev" declared and jdoe holding
    admin and dev, the write of Delete carries admin alone (when the
    framework reports the roles as changed, so that Update writes at all). *)
Example delete_scenario_5 :
  ∃ (d' : ResourceData) (m' : NexusClient),
    resourceSecurityUserRoleDelete changed
      (jdoe_data ["dev"%string]) (server_with ["admin"; "dev"]%string [])
    = Returned (None, d', m')
    ∧ rd_id d' = ""%string
    ∧ requests m'
      = [ReqGet "jdoe";
         ReqUpdate "jdoe" (getSecurityUserRoleFromResourceData
                             (jdoe_data ["admin"%string]));
         ReqGet "jdoe"]
    ∧ Roles (getSecurityUserRoleFromResourceData (jdoe_data ["admin"%string]))
      = ["admin"%string].
Proof. eexists _, _. split; [reflexivity|]. by repeat split. Qed.

(** The fetch of Delete came back with a nil user and a nil error: the
    next thing Delete does with it is [apiUser.Roles]. *)
Lemma Delete_nil_user (HasChange : ResourceData → string → bool)
    (d : ResourceData) (m m' : NexusClient) :
  nexus.Get (rd_id d) m = ((None, None), m') →
  resourceSecurityUserRoleDelete HasChange d m = Panicked.
Proof. intros HGet. unfold resourceSecurityUserRoleDelete. by rewrite HGet. Qed.

(** C5.  The delete hook run for jdoe against a server that does not know
    jdoe: the fetch reports not-found (nil, nil) and the hook panics instead
    of returning, whatever the framework answers to HasChange. *)
Theorem delete_not_found_panics (HasChange : ResourceData → string → bool) :
  nexus.Get "jdoe" (server_without [])
  = ((None, None), {| users := ∅; faults := []; requests := [ReqGet "jdoe"] |})
  ∧ resourceSecurityUserRoleDelete HasChange
      (jdoe_data ["dev"%string]) (server_without [])
    = Panicked.
Proof.
  split; [reflexivity|].
  by apply (Delete_nil_user HasChange (jdoe_data ["dev"%string])
              (server_without []) (sent (ReqGet "jdoe") (server_without []))).
Qed.

(** The sibling hooks guard against the nil user that Delete dereferences. *)
Example read_not_found_clears_id :
  resourceSecurityUserRoleRead (jdoe_data ["dev"%string]) (server_without [])
  = (None, SetId "" (jdoe_data ["dev"%string]),
     {| users := ∅; faults := []; requests := [ReqGet "jdoe"] |}).
Proof. reflexivity. Qed.

(** ** Failures *)










(** The three failures of the statement above do happen. *)
Example failed_update_example :
  resourceSecurityUserRoleUpdate changed (jdoe_data ["dev"%string])
    (server_with ["admin"%string] [Some timeout])
  = (Some timeout, jdoe_data ["dev"%string],
     {| users := {[ "jdoe"%string := jdoe ["admin"%string] ]}; faults := [];
        requests := [ReqUpdate "jdoe" (getSecurityUserRoleFromResourceData
                                         (jdoe_data ["dev"%string]))] |}).
Proof. reflexivity. Qed.

Example failed_delete_example :
  resourceSecurityUserRoleDelete unchanged (jdoe_data ["dev"%string])
    (server_with ["admin"; "dev"]%string [None; Some timeout])
  = Returned (Some timeout,
              Set_roles ["admin"%string] (jdoe_data ["dev"%string]),
              {| users := {[ "jdoe"%string := jdoe ["admin"; "dev"]%string ]};
                 faults := []; requests := [ReqGet "jdoe"; ReqGet "jdoe"] |}).
Proof. reflexivity. Qed.

Example failed_create_example (userRead : ResourceData → NexusClient → hook_result) :
  resourceSecurityUserRoleCreate userRead (jdoe_data ["dev"%string])
    (server_with ["admin"%string] [None; Some timeout])
  = (Some timeout,
     refreshed (jdoe ["admin"%string]) (jdoe_data ["dev"%string]),
     {| users := {[ "jdoe"%string := jdoe ["admin"%string] ]}; faults := [];
        requests := [ReqGet "jdoe"; ReqUpdate "jdoe" (jdoe ["admin"%string])] |}).
Proof. reflexivity. Qed.

(** ** The framework's set and the set of the slice's roles *)

(** The checksum is the CRC-32 of the standard check string, and it does
    file two different roles under one key. *)
Example ChecksumIEEE_check :
  hashcode.ChecksumIEEE "123456789" = 0xCBF43926%Z
  ∧ set_key "plumless" = set_key "buckeroo".
Proof. split; vm_compute; reflexivity. Qed.

Lemma file_role_keeps (s : gmap Z string) (role : string) (k : Z) (x : string) :
  s !! k = Some x → file_role s role !! k = Some x.
Proof.
  intros Hk. unfold file_role.
  destruct (s !! set_key role) eqn:Hrole; [done|].
  rewrite lookup_insert_ne; [done|]. intros <-. congruence.
Qed.

Lemma keyed_keeps (roles : list string) (s : gmap Z string) (k : Z) (x : string) :
  s !! k = Some x → foldl file_role s roles !! k = Some x.
Proof.
  revert s. induction roles as [|role roles IH]; intros s Hk; [done|].
  simpl. apply IH. by apply file_role_keeps.
Qed.

Lemma keyed_occupied (roles : list string) (s : gmap Z string) (role : string) :
  role ∈ roles → is_Some (foldl file_role s roles !! set_key role).
Proof.
  revert s. induction roles as [|r roles IH]; intros s Hin.
  - by apply elem_of_nil in Hin.
  - simpl. apply elem_of_cons in Hin as [->|Hin]; [|by apply IH].
    assert (is_Some (file_role s r !! set_key r)) as [x Hx].
    { unfold file_role. destruct (s !! set_key r) eqn:Hr; [by rewrite Hr|].
      rewrite lookup_insert_eq. by eexists. }
    exists x. by apply keyed_keeps.
Qed.

Lemma keyed_sound (roles : list string) (s : gmap Z string) (k : Z) (r : string) :
  foldl file_role s roles !! k = Some r →
  s !! k = Some r ∨ (r ∈ roles ∧ set_key r = k).
Proof.
  revert s. induction roles as [|role roles IH]; intros s Hk; [by left|].
  simpl in Hk. apply IH in Hk as [Hk|[Hin Hkey]].
  - unfold file_role in Hk. destruct (s !! set_key role) eqn:Hrole; [by left|].
    destruct (decide (set_key role = k)) as [<-|Hne].
    + rewrite lookup_insert_eq in Hk. injection Hk as ->. right.
      split; [by left|done].
    + rewrite lookup_insert_ne in Hk by done. by left.
  - right. split; [by right|done].
Qed.

(** On a slice whose roles have distinct keys the framework's set holds
    exactly the roles of the slice, which is what [Set_roles] stores. *)
Lemma keyed_set_members (roles : list string) (role : string) :
  distinct_keys roles →
  (∃ k : Z, keyed_set roles !! k = Some role) ↔ role ∈ roles.
Proof.
  intros Hdistinct. unfold keyed_set. split.
  - intros [k Hk]. apply keyed_sound in Hk as [Hk|[Hin _]]; [|done].
    by rewrite lookup_empty in Hk.
  - intros Hin. destruct (keyed_occupied roles ∅ role Hin) as [x Hx].
    exists (set_key role).
    destruct (keyed_sound _ _ _ _ Hx) as [Hx'|[Hin' Hkey]].
    + by rewrite lookup_empty in Hx'.
    + rewrite (Hdistinct x role Hin' Hin Hkey) in Hx. exact Hx.
Qed.

Lemma distinct_keys_sublist (l k : list string) :
  l `sublist_of` k → distinct_keys k → distinct_keys l.
Proof.
  intros Hsub Hk r1 r2 H1 H2. apply Hk; by eapply elem_of_sublist.
Qed.

(** * Further properties of the code *)

(** ** The remainder: order, duplicates, composition *)

(** X1.  The remainder is the remote slice with some entries struck out:
    what is left keeps its order, and every role that is not desired occurs
    in the remainder exactly as often as in the remote slice, while a desired
    role does not occur at all.  So the remainder is never longer than the
    remote slice and lists no role twice unless the remote slice did. *)
Theorem remainder_sublist (D R : list string) :
  computeRemainderAfterRemoval D R `sublist_of` R
  ∧ (∀ role : string, role ∉ D →
       filter (λ r, r = role) (computeRemainderAfterRemoval D R)
       = filter (λ r, r = role) R)
  ∧ (∀ role : string, role ∈ D →
       filter (λ r, r = role) (computeRemainderAfterRemoval D R) = [])
  ∧ length (computeRemainderAfterRemoval D R) ≤ length R
  ∧ (NoDup R → NoDup (computeRemainderAfterRemoval D R)).
Proof.
  rewrite remainder_filter. split; [apply sublist_filter|].
  split; [|split; [|split; [apply length_filter|apply NoDup_filter]]].
  - intros role Hout. rewrite list_filter_filter. apply list_filter_iff.
    intros r. split; [tauto|]. by intros ->.
  - intros role Hin. rewrite list_filter_filter.
    induction R as [|r R IH]; [done|].
    rewrite filter_cons_False; [done|]. intros [-> Hout]. by apply Hout.
Qed.

(** X2.  Only the members of the desired slice matter, not their order and
    not how often each is listed: two desired slices with the same members
    strike out the same roles. *)
Theorem remainder_desired_members_only (D D' R : list string) :
  (∀ role : string, role ∈ D ↔ role ∈ D') →
  computeRemainderAfterRemoval D R = computeRemainderAfterRemoval D' R.
Proof.
  intros Hsame. rewrite !remainder_filter.
  apply list_filter_iff. intros role. by rewrite Hsame.
Qed.

Lemma remainder_desired_members_only_witness :
  computeRemainderAfterRemoval ["dev"; "qa"]%string ["admin"; "qa"; "dev"]%string
  = computeRemainderAfterRemoval ["qa"; "dev"; "qa"]%string
      ["admin"; "qa"; "dev"]%string.
Proof.
  apply (remainder_desired_members_only ["dev"; "qa"]%string
           ["qa"; "dev"; "qa"]%string).
  intros role. rewrite !elem_of_cons, !elem_of_nil. tauto.
Defined.

(** X3.  Removing two desired slices at once is removing one after the
    other, and the remainder of a remote slice given in two parts is the
    two remainders put together. *)
Theorem remainder_compose (D1 D2 R1 R2 : list string) :
  computeRemainderAfterRemoval (D1 ++ D2) R1
  = computeRemainderAfterRemoval D1 (computeRemainderAfterRemoval D2 R1)
  ∧ computeRemainderAfterRemoval D1 (R1 ++ R2)
    = computeRemainderAfterRemoval D1 R1 ++ computeRemainderAfterRemoval D1 R2.
Proof.
  rewrite !remainder_filter. split.
  - rewrite list_filter_filter. apply list_filter_iff.
    intros role. apply not_elem_of_app.
  - apply filter_app.
Qed.

(** X4.  The two extremes: nothing is left exactly when every remote role
    is a desired one, and everything is left exactly when no remote role is
    a desired one (in particular when nothing is desired). *)
Theorem remainder_extremes (D R : list string) :
  (computeRemainderAfterRemoval D R = [] ↔ ∀ role : string, role ∈ R → role ∈ D)
  ∧ (computeRemainderAfterRemoval D R = R ↔ ∀ role : string, role ∈ R → role ∉ D)
  ∧ computeRemainderAfterRemoval [] R = R.
Proof.
  rewrite !remainder_filter.
  assert (∀ (P : string → Prop) `{!∀ x, Decision (P x)} (l : list string),
            filter P l = l ↔ ∀ x, x ∈ l → P x) as Hall.
  { intros P HP l. induction l as [|r l IH].
    - split; [intros _ x Hx; by apply elem_of_nil in Hx|done].
    - destruct (decide (P r)) as [Hr|Hr].
      + rewrite filter_cons_True by done. split.
        * intros [= Hl] x [->|Hx]%elem_of_cons; [done|]. by apply IH.
        * intros Hl. f_equal. apply IH. intros x Hx. apply Hl. by right.
      + rewrite filter_cons_False by done. split.
        * intros Hl. pose proof (length_filter P l) as Hlen.
          rewrite Hl in Hlen. simpl in Hlen. lia.
        * intros Hl. destruct Hr. apply Hl. by left. }
  split; [|split].
  - induction R as [|r R IH]; [split; [intros _ x Hx; by apply elem_of_nil in Hx|done]|].
    destruct (decide (r ∉ D)) as [Hr|Hr].
    + rewrite (filter_cons_True (.∉ D)) by done. split; [done|].
      intros Hl. destruct Hr. apply Hl. by left.
    + rewrite (filter_cons_False (.∉ D)) by done. rewrite IH. split.
      * intros Hl x [->|Hx]%elem_of_cons; [by apply dec_stable|by apply Hl].
      * intros Hl x Hx. apply Hl. by right.
  - apply Hall.
  - apply Hall. intros x _. apply not_elem_of_nil.
Qed.

(** ** The existence test on arbitrary slices *)

(** X5.  The existence test does not depend on the order in which either
    slice lists its roles, whether or not roles are repeated. *)
Theorem computeExistence_order_independent (D D' R R' : list string) :
  D ≡ₚ D' → R ≡ₚ R' → computeExistence D R = computeExistence D' R'.
Proof.
  intros HD HR. apply Bool.eq_iff_eq_true.
  rewrite !computeExistence_true, HD, HR.
  split; intros [Hl Hall]; (split; [done|]);
    eapply Forall_impl; try exact Hall; intros role; simpl.
  - by rewrite HD.
  - by rewrite HD.
Qed.

Lemma computeExistence_order_independent_witness :
  computeExistence ["admin"; "dev"; "qa"]%string ["qa"; "admin"; "dev"]%string
  = computeExistence ["dev"; "qa"; "admin"]%string ["dev"; "admin"; "qa"]%string.
Proof.
  apply computeExistence_order_independent.
  - apply (bool_decide_unpack _). vm_compute. exact I.
  - apply (bool_decide_unpack _). vm_compute. exact I.
Defined.

(** ** The read hook *)

(** Writing the resource data out as a user and reading that user back in
    changes nothing. *)
Lemma refreshed_own (d : ResourceData) :
  refreshed (getSecurityUserRoleFromResourceData d) d = d.
Proof.
  destruct d as [id userid first last email pw roles status source].
  cbv beta iota delta
    [refreshed Set_source Set_userid Set_status Set_roles Set_lastname
     Set_firstname Set_email Get_roles_List getSecurityUserRoleFromResourceData
     rd_id rd_userid rd_firstname rd_lastname rd_email rd_password rd_roles
     rd_status rd_source UserID FirstName LastName EmailAddress Password
     Status Source Roles].
  f_equal. apply list_to_set_elements_L.
Qed.

Lemma refreshed_twice (user : User) (d : ResourceData) :
  refreshed user (refreshed user d) = refreshed user d.
Proof. reflexivity. Qed.

(** X6.  Reading a user the server does not know is no error: the resource
    id is cleared, every attribute stays as it was, and nothing is written
    to the server. *)
Theorem read_not_found_drops_resource (d : ResourceData) (m : NexusClient) :
  next_fault m = None →
  users m !! rd_id d = None →
  ∃ (d' : ResourceData) (m' : NexusClient),
    resourceSecurityUserRoleRead d m = (None, d', m')
    ∧ rd_id d' = ""%string
    ∧ getSecurityUserRoleFromResourceData d' = getSecurityUserRoleFromResourceData d
    ∧ users m' = users m.
Proof.
  intros Hf Huser. pose proof (Read_cases d m) as HRead.
  rewrite Hf, Huser in HRead. eexists _, _. split; [exact HRead|]. done.
Qed.

Lemma read_not_found_drops_resource_witness :
  ∃ (d' : ResourceData) (m' : NexusClient),
    resourceSecurityUserRoleRead (jdoe_data ["dev"%string]) (server_without [])
    = (None, d', m')
    ∧ rd_id d' = ""%string
    ∧ getSecurityUserRoleFromResourceData d'
      = getSecurityUserRoleFromResourceData (jdoe_data ["dev"%string])
    ∧ users m' = users (server_without []).
Proof.
  apply (read_not_found_drops_resource (jdoe_data ["dev"%string])
           (server_without [])); reflexivity.
Defined.

(** Key-distinctness of a short, explicit slice, by running the checksum. *)
Ltac distinct_keys_by_computation :=
  let r1 := fresh "r" in
  let r2 := fresh "r" in
  let H1 := fresh "H" in
  let H2 := fresh "H" in
  let Hkey := fresh "Hkey" in
  intros r1 r2 H1 H2 Hkey;
  rewrite ?elem_of_cons, elem_of_nil in H1;
  rewrite ?elem_of_cons, elem_of_nil in H2;
  repeat (destruct H1 as [H1|H1]; [subst r1|]); try (destruct H1);
  repeat (destruct H2 as [H2|H2]; [subst r2|]); try (destruct H2);
  try reflexivity; vm_compute in Hkey; discriminate Hkey.

(** X7.  Reading a user the server knows, whose roles the framework's set
    files under distinct keys, brings every attribute of the user into the
    resource data except the password, which stays the local one; the
    resource id stays; and the roles in the resource data afterwards are
    exactly the roles of the user, which is what the framework's set built
    from them holds. *)
Theorem read_found_mirrors_user (d : ResourceData) (m : NexusClient) (user : User) :
  next_fault m = None →
  users m !! rd_id d = Some user →
  distinct_keys (Roles user) →
  ∃ (d' : ResourceData) (m' : NexusClient),
    resourceSecurityUserRoleRead d m = (None, d', m')
    ∧ rd_id d' = rd_id d
    ∧ rd_userid d' = UserID user
    ∧ rd_firstname d' = FirstName user
    ∧ rd_lastname d' = LastName user
    ∧ rd_email d' = EmailAddress user
    ∧ rd_status d' = Status user
    ∧ rd_source d' = Source user
    ∧ rd_password d' = rd_password d
    ∧ ∀ role : string,
        (role ∈ rd_roles d' ↔ role ∈ Roles user)
        ∧ (role ∈ rd_roles d' ↔ ∃ k : Z, keyed_set (Roles user) !! k = Some role).
Proof.
  intros Hf Huser Hdistinct. pose proof (Read_cases d m) as HRead.
  rewrite Hf, Huser in HRead. eexists _, _. split; [exact HRead|].
  repeat (split; [reflexivity|]).
  intros role. unfold refreshed. cbn [rd_roles Set_source Set_userid Set_status Set_roles].
  rewrite keyed_set_members by done. by rewrite elem_of_list_to_set.
Qed.

Lemma read_found_mirrors_user_witness :
  ∃ (d' : ResourceData) (m' : NexusClient),
    resourceSecurityUserRoleRead (jdoe_data ["dev"%string])
      (server_with ["admin"; "admin"; "dev"]%string [])
    = (None, d', m')
    ∧ rd_id d' = rd_id (jdoe_data ["dev"%string])
    ∧ rd_userid d' = UserID (jdoe ["admin"; "admin"; "dev"]%string)
    ∧ rd_firstname d' = FirstName (jdoe ["admin"; "admin"; "dev"]%string)
    ∧ rd_lastname d' = LastName (jdoe ["admin"; "admin"; "dev"]%string)
    ∧ rd_email d' = EmailAddress (jdoe ["admin"; "admin"; "dev"]%string)
    ∧ rd_status d' = Status (jdoe ["admin"; "admin"; "dev"]%string)
    ∧ rd_source d' = Source (jdoe ["admin"; "admin"; "dev"]%string)
    ∧ rd_password d' = rd_password (jdoe_data ["dev"%string])
    ∧ ∀ role : string,
        (role ∈ rd_roles d'
         ↔ role ∈ Roles (jdoe ["admin"; "admin"; "dev"]%string))
        ∧ (role ∈ rd_roles d'
           ↔ ∃ k : Z,
               keyed_set (Roles (jdoe ["admin"; "admin"; "dev"]%string)) !! k
               = Some role).
Proof.
  apply (read_found_mirrors_user (jdoe_data ["dev"%string])
           (server_with ["admin"; "admin"; "dev"]%string [])).
  - reflexivity.
  - reflexivity.
  - simpl. distinct_keys_by_computation.
Defined.

(** X8.  Reading twice in a row brings back what reading once brought:
    when the user is known and both fetches go through, the second read
    leaves the resource data of the first as they are. *)
Theorem read_twice_same (d : ResourceData) (m : NexusClient) (user : User) :
  next_fault m = None →
  next_fault (sent (ReqGet (rd_id d)) m) = None →
  users m !! rd_id d = Some user →
  ∃ (d' : ResourceData) (m' m'' : NexusClient),
    resourceSecurityUserRoleRead d m = (None, d', m')
    ∧ resourceSecurityUserRoleRead d' m' = (None, d', m'').
Proof.
  intros Hf1 Hf2 Huser.
  pose proof (Read_cases d m) as HRead1. rewrite Hf1, Huser in HRead1.
  pose proof (Read_cases (refreshed user d) (sent (ReqGet (rd_id d)) m)) as HRead2.
  change (rd_id (refreshed user d)) with (rd_id d) in HRead2.
  rewrite Hf2 in HRead2. change (users (sent (ReqGet (rd_id d)) m)) with (users m) in HRead2.
  rewrite Huser, refreshed_twice in HRead2.
  eexists _, _, _. split; [exact HRead1|exact HRead2].
Qed.

Lemma read_twice_same_witness :
  ∃ (d' : ResourceData) (m' m'' : NexusClient),
    resourceSecurityUserRoleRead (jdoe_data ["dev"%string])
      (server_with ["admin"; "dev"]%string []) = (None, d', m')
    ∧ resourceSecurityUserRoleRead d' m' = (None, d', m'').
Proof.
  apply (read_twice_same (jdoe_data ["dev"%string])
           (server_with ["admin"; "dev"]%string [])
           (jdoe ["admin"; "dev"]%string)); reflexivity.
Defined.

(** ** The update hook, and the exists hook after it *)

Lemma no_fault_next (m : NexusClient) :
  Forall (λ f, f = None) (faults m) → next_fault m = None.
Proof.
  unfold next_fault. destruct (faults m) as [|f script]; [done|].
  intros [-> _]%Forall_cons. done.
Qed.

Lemma no_fault_sent (req : Request) (m : NexusClient) :
  Forall (λ f, f = None) (faults m) →
  Forall (λ f, f = None) (faults (sent req m)).
Proof.
  simpl. destruct (faults m) as [|f script]; [done|].
  by intros [_ ?]%Forall_cons.
Qed.

(** An Update whose write and fetch both go through. *)
Lemma Update_goes_through (HasChange : ResourceData → string → bool)
    (d : ResourceData) (m : NexusClient) :
  HasChange d "roles" = true →
  next_fault m = None →
  next_fault (sent (ReqUpdate (rd_id d) (getSecurityUserRoleFromResourceData d)) m)
  = None →
  resourceSecurityUserRoleUpdate HasChange d m
  = (None, d,
     sent (ReqGet (rd_id d))
       (stored (rd_id d) (getSecurityUserRoleFromResourceData d)
          (sent (ReqUpdate (rd_id d) (getSecurityUserRoleFromResourceData d)) m))).
Proof.
  intros Hc Hf1 Hf2.
  pose proof (Update_changed_cases HasChange d m Hc) as HUpdate.
  simpl in HUpdate. rewrite Hf1 in HUpdate. rewrite HUpdate.
  match goal with
  | |- resourceSecurityUserRoleRead d ?m1 = _ =>
      pose proof (Read_cases d m1) as HRead;
      change (next_fault m1) with
        (next_fault (sent (ReqUpdate (rd_id d)
                             (getSecurityUserRoleFromResourceData d)) m)) in HRead;
      change (users m1) with
        (<[rd_id d := getSecurityUserRoleFromResourceData d]> (users m)) in HRead
  end.
  rewrite Hf2, lookup_insert_eq, refreshed_own in HRead. exact HRead.
Qed.

Lemma computeExistence_refl (roles : list string) :
  computeExistence roles roles = true.
Proof.
  apply computeExistence_true. split; [done|]. by apply Forall_forall.
Qed.

(** X9.  An update with changed roles whose write and fetch both go through
    returns no error and the resource data exactly as it was given: what the
    fetch brings back is what was written.  The server then holds the written
    user under the resource id, and the hook has issued the write and one
    fetch, in that order. *)
Theorem update_round_trip (HasChange : ResourceData → string → bool)
    (d : ResourceData) (m : NexusClient) :
  HasChange d "roles" = true →
  next_fault m = None →
  next_fault (sent (ReqUpdate (rd_id d) (getSecurityUserRoleFromResourceData d)) m)
  = None →
  ∃ m' : NexusClient,
    resourceSecurityUserRoleUpdate HasChange d m = (None, d, m')
    ∧ users m' = <[rd_id d := getSecurityUserRoleFromResourceData d]> (users m)
    ∧ requests m'
      = requests m ++ [ReqUpdate (rd_id d) (getSecurityUserRoleFromResourceData d);
                       ReqGet (rd_id d)].
Proof.
  intros Hc Hf1 Hf2. eexists. split; [by apply Update_goes_through|].
  split; [done|]. simpl. by rewrite <- app_assoc.
Qed.

Lemma update_round_trip_witness :
  ∃ m' : NexusClient,
    resourceSecurityUserRoleUpdate changed (jdoe_data ["dev"; "qa"]%string)
      (server_with ["admin"; "dev"]%string [])
    = (None, jdoe_data ["dev"; "qa"]%string, m')
    ∧ users m'
      = <[rd_id (jdoe_data ["dev"; "qa"]%string) :=
            getSecurityUserRoleFromResourceData (jdoe_data ["dev"; "qa"]%string)]>
          (users (server_with ["admin"; "dev"]%string []))
    ∧ requests m'
      = requests (server_with ["admin"; "dev"]%string [])
        ++ [ReqUpdate (rd_id (jdoe_data ["dev"; "qa"]%string))
              (getSecurityUserRoleFromResourceData (jdoe_data ["dev"; "qa"]%string));
            ReqGet (rd_id (jdoe_data ["dev"; "qa"]%string))].
Proof.
  apply (update_round_trip changed (jdoe_data ["dev"; "qa"]%string)
           (server_with ["admin"; "dev"]%string [])); reflexivity.
Defined.

(** X10.  After an update with changed roles over a transport that does not
    fail, the exists hook answers true: the server holds exactly the declared
    roles. *)
Theorem exists_after_update (HasChange : ResourceData → string → bool)
    (d : ResourceData) (m : NexusClient) :
  HasChange d "roles" = true →
  Forall (λ f, f = None) (faults m) →
  ∃ m' : NexusClient,
    resourceSecurityUserRoleUpdate HasChange d m = (None, d, m')
    ∧ (resourceSecurityUserRoleExists d m').1 = (true, None).
Proof.
  intros Hc Hquiet.
  pose proof (no_fault_next _ Hquiet) as Hf1.
  pose proof (no_fault_sent (ReqUpdate (rd_id d)
                (getSecurityUserRoleFromResourceData d)) _ Hquiet) as Hquiet2.
  pose proof (no_fault_next _ Hquiet2) as Hf2.
  eexists. split; [by apply Update_goes_through|].
  unfold resourceSecurityUserRoleExists, nexus.Get.
  match goal with
  | |- context [next_fault ?m2] =>
      assert (next_fault m2 = None) as ->
        by (apply no_fault_next, no_fault_sent; exact Hquiet2)
  end.
  cbn [users sent stored]. rewrite lookup_insert_eq. cbn [fst].
  by rewrite computeExistence_refl.
Qed.

Lemma exists_after_update_witness :
  ∃ m' : NexusClient,
    resourceSecurityUserRoleUpdate changed (jdoe_data ["dev"; "qa"]%string)
      (server_with ["admin"; "dev"]%string [None; None])
    = (None, jdoe_data ["dev"; "qa"]%string, m')
    ∧ (resourceSecurityUserRoleExists (jdoe_data ["dev"; "qa"]%string) m').1
      = (true, None).
Proof.
  apply (exists_after_update changed (jdoe_data ["dev"; "qa"]%string)
           (server_with ["admin"; "dev"]%string [None; None])).
  - reflexivity.
  - repeat constructor.
Defined.

(** ** The delete hook *)

(** Delete once its fetch has found the user: lines 170-195. *)
Lemma Delete_found (HasChange : ResourceData → string → bool)
    (d : ResourceData) (m : NexusClient) (apiUser : User) :
  next_fault m = None →
  users m !! rd_id d = Some apiUser →
  resourceSecurityUserRoleDelete HasChange d m
  = match resourceSecurityUserRoleUpdate HasChange
            (Set_roles (computeRemainderAfterRemoval (Get_roles_List d)
                          (Roles apiUser)) d)
            (sent (ReqGet (rd_id d)) m) with
    | (Some e, d', m') => Returned (Some e, d', m')
    | (None, d', m') => Returned (None, SetId "" d', m')
    end.
Proof.
  intros Hf Huser. unfold resourceSecurityUserRoleDelete, nexus.Get.
  rewrite Hf, Huser. reflexivity.
Qed.

(** X11.  A delete that finds the user, over a transport that does not
    fail, with the roles reported as changed and the user's roles filed
    under distinct keys by the framework's set, fetches, writes and fetches
    again; the user it leaves on the server has exactly the remote roles that
    were not declared, each once, which is what the framework's set built
    from the remainder holds; the resource id is cleared. *)
Theorem delete_writes_remainder (HasChange : ResourceData → string → bool)
    (d : ResourceData) (m : NexusClient) (apiUser : User) :
  Forall (λ f, f = None) (faults m) →
  users m !! rd_id d = Some apiUser →
  distinct_keys (Roles apiUser) →
  HasChange (Set_roles (computeRemainderAfterRemoval (Get_roles_List d)
                          (Roles apiUser)) d) "roles" = true →
  ∃ (written : User) (d' : ResourceData) (m' : NexusClient),
    resourceSecurityUserRoleDelete HasChange d m = Returned (None, d', m')
    ∧ rd_id d' = ""%string
    ∧ requests m'
      = requests m ++ [ReqGet (rd_id d); ReqUpdate (rd_id d) written;
                       ReqGet (rd_id d)]
    ∧ users m' = <[rd_id d := written]> (users m)
    ∧ NoDup (Roles written)
    ∧ ∀ role : string,
        (role ∈ Roles written ↔ role ∈ Roles apiUser ∧ role ∉ rd_roles d)
        ∧ (role ∈ Roles written
           ↔ ∃ k : Z,
               keyed_set (computeRemainderAfterRemoval (Get_roles_List d)
                            (Roles apiUser)) !! k = Some role).
Proof.
  intros Hquiet Huser Hdistinct Hc.
  pose proof (no_fault_next _ Hquiet) as Hf1.
  pose proof (no_fault_sent (ReqGet (rd_id d)) _ Hquiet) as Hquiet1.
  pose proof (no_fault_next _ Hquiet1) as Hf2.
  assert (distinct_keys (computeRemainderAfterRemoval (Get_roles_List d)
                           (Roles apiUser))) as Hdistinct'.
  { apply (distinct_keys_sublist _ (Roles apiUser)); [|done].
    rewrite remainder_filter. apply sublist_filter. }
  set (d1 := Set_roles (computeRemainderAfterRemoval (Get_roles_List d)
                          (Roles apiUser)) d) in *.
  pose proof (no_fault_sent (ReqUpdate (rd_id d1)
                (getSecurityUserRoleFromResourceData d1)) _ Hquiet1) as Hquiet2.
  pose proof (no_fault_next _ Hquiet2) as Hf3.
  pose proof (Update_goes_through HasChange d1 _ Hc Hf2 Hf3) as HUpdate.
  exists (getSecurityUserRoleFromResourceData d1).
  rewrite (Delete_found HasChange d m apiUser Hf1 Huser). fold d1.
  rewrite HUpdate.
  eexists _, _. split; [reflexivity|]. split; [done|].
  split; [simpl; by rewrite <- !app_assoc|]. split; [done|].
  cbn [Roles getSecurityUserRoleFromResourceData]. unfold Get_roles_List.
  split; [apply NoDup_elements|].
  intros role. subst d1. cbn [rd_roles Set_roles].
  fold (Get_roles_List d) in *.
  rewrite keyed_set_members by done.
  rewrite elem_of_elements, elem_of_list_to_set, elem_of_remainder.
  unfold Get_roles_List. rewrite elem_of_elements. tauto.
Qed.

Lemma delete_writes_remainder_witness :
  ∃ (written : User) (d' : ResourceData) (m' : NexusClient),
    resourceSecurityUserRoleDelete changed (jdoe_data ["dev"%string])
      (server_with ["admin"; "dev"]%string [])
    = Returned (None, d', m')
    ∧ rd_id d' = ""%string
    ∧ requests m'
      = requests (server_with ["admin"; "dev"]%string [])
        ++ [ReqGet (rd_id (jdoe_data ["dev"%string]));
            ReqUpdate (rd_id (jdoe_data ["dev"%string])) written;
            ReqGet (rd_id (jdoe_data ["dev"%string]))]
    ∧ users m'
      = <[rd_id (jdoe_data ["dev"%string]) := written]>
          (users (server_with ["admin"; "dev"]%string []))
    ∧ NoDup (Roles written)
    ∧ ∀ role : string,
        (role ∈ Roles written
         ↔ role ∈ Roles (jdoe ["admin"; "dev"]%string)
           ∧ role ∉ rd_roles (jdoe_data ["dev"%string]))
        ∧ (role ∈ Roles written
           ↔ ∃ k : Z,
               keyed_set (computeRemainderAfterRemoval
                            (Get_roles_List (jdoe_data ["dev"%string]))
                            (Roles (jdoe ["admin"; "dev"]%string))) !! k
               = Some role).
Proof.
  apply (delete_writes_remainder changed (jdoe_data ["dev"%string])
           (server_with ["admin"; "dev"]%string [])
           (jdoe ["admin"; "dev"]%string)).
  - constructor.
  - reflexivity.
  - simpl. distinct_keys_by_computation.
  - reflexivity.
Defined.

(** X12.  Delete writes through Update, and Update writes only when the
    framework reports the roles as changed.  When it does not, a delete that
    finds the user issues two fetches and no write: it returns no error and
    clears the resource id while the server keeps the user as it was. *)
Theorem delete_without_change_writes_nothing
    (HasChange : ResourceData → string → bool)
    (d : ResourceData) (m : NexusClient) (apiUser : User) :
  next_fault m = None →
  next_fault (sent (ReqGet (rd_id d)) m) = None →
  users m !! rd_id d = Some apiUser →
  HasChange (Set_roles (computeRemainderAfterRemoval (Get_roles_List d)
                          (Roles apiUser)) d) "roles" = false →
  ∃ (d' : ResourceData) (m' : NexusClient),
    resourceSecurityUserRoleDelete HasChange d m = Returned (None, d', m')
    ∧ rd_id d' = ""%string
    ∧ users m' = users m
    ∧ requests m' = requests m ++ [ReqGet (rd_id d); ReqGet (rd_id d)].
Proof.
  intros Hf1 Hf2 Huser Hc.
  rewrite (Delete_found HasChange d m apiUser Hf1 Huser).
  unfold resourceSecurityUserRoleUpdate. rewrite Hc.
  match goal with
  | |- context [resourceSecurityUserRoleRead ?d1 ?m1] =>
      pose proof (Read_cases d1 m1) as HRead;
      change (rd_id d1) with (rd_id d) in HRead;
      change (users m1) with (users m) in HRead
  end.
  rewrite Hf2, Huser in HRead. rewrite HRead.
  eexists _, _. split; [reflexivity|]. split; [done|]. split; [done|].
  simpl. by rewrite <- app_assoc.
Qed.

Lemma delete_without_change_writes_nothing_witness :
  ∃ (d' : ResourceData) (m' : NexusClient),
    resourceSecurityUserRoleDelete unchanged (jdoe_data ["dev"%string])
      (server_with ["admin"; "dev"]%string [])
    = Returned (None, d', m')
    ∧ rd_id d' = ""%string
    ∧ users m' = users (server_with ["admin"; "dev"]%string [])
    ∧ requests m'
      = requests (server_with ["admin"; "dev"]%string [])
        ++ [ReqGet (rd_id (jdoe_data ["dev"%string]));
            ReqGet (rd_id (jdoe_data ["dev"%string]))].
Proof.
  apply (delete_without_change_writes_nothing unchanged
           (jdoe_data ["dev"%string]) (server_with ["admin"; "dev"]%string [])
           (jdoe ["admin"; "dev"]%string)); reflexivity.
Defined.

(** X13.  Delete panics in exactly one situation: its fetch went through
    and the server does not know the user.  In every other situation it
    returns. *)
Theorem delete_panics_iff (HasChange : ResourceData → string → bool)
    (d : ResourceData) (m : NexusClient) :
  resourceSecurityUserRoleDelete HasChange d m = Panicked
  ↔ next_fault m = None ∧ users m !! rd_id d = None.
Proof.
  unfold resourceSecurityUserRoleDelete, nexus.Get.
  destruct (next_fault m) as [e|].
  - split; [done|]. by intros [? _].
  - destruct (users m !! rd_id d) as [apiUser|].
    + cbn zeta.
      destruct (resourceSecurityUserRoleUpdate _ _ _) as [[[e|] d'] m'];
        (split; [done|]); by intros [_ ?].
    + done.
Qed.

(** ** Failures: no retry, no further call *)

Lemma fault_head (m : NexusClient) (e : error) :
  next_fault m = Some e → faults m = Some e :: tail (faults m).
Proof.
  unfold next_fault. destruct (faults m) as [|[e'|] script]; simpl; try done.
  by intros [= ->].
Qed.

Lemma no_fault_head (m : NexusClient) (script : list (option error)) :
  next_fault m = None → tail (faults m) = script → script ≠ [] →
  faults m = None :: script.
Proof.
  unfold next_fault. destruct (faults m) as [|[e'|] script']; simpl; try done;
    by intros _ <-.
Qed.

Lemma Read_stops (d d' : ResourceData) (m m' : NexusClient) (e : error) :
  resourceSecurityUserRoleRead d m = (Some e, d', m') →
  faults m = Some e :: faults m'
  ∧ requests m' = requests m ++ [ReqGet (rd_id d)].
Proof.
  intros HRead. apply Read_inv in HRead as [-> HRead].
  destruct (HRead e eq_refl) as [Hf _]. split; [by apply fault_head|done].
Qed.

Lemma Update_stops (HasChange : ResourceData → string → bool)
    (d d' : ResourceData) (m m' : NexusClient) (e : error) :
  resourceSecurityUserRoleUpdate HasChange d m = (Some e, d', m') →
  ∃ (k : nat) (new : list Request),
    k ≤ 1
    ∧ faults m = replicate k None ++ Some e :: faults m'
    ∧ requests m' = requests m ++ new
    ∧ length new = S k.
Proof.
  unfold resourceSecurityUserRoleUpdate, nexus.Update.
  destruct (HasChange d "roles").
  - destruct (next_fault m) as [e0|] eqn:Hf.
    + intros [= -> <- <-].
      exists 0, [ReqUpdate (rd_id d) (getSecurityUserRoleFromResourceData d)].
      split; [lia|]. split; [by apply fault_head|done].
    + intros HRead. apply Read_stops in HRead as [Hfs Hreq].
      exists 1, [ReqUpdate (rd_id d) (getSecurityUserRoleFromResourceData d);
                 ReqGet (rd_id d)].
      split; [lia|]. split; [by apply no_fault_head|].
      split; [|done]. rewrite Hreq. simpl. by rewrite <- app_assoc.
  - intros HRead. apply Read_stops in HRead as [Hfs Hreq].
    exists 0, [ReqGet (rd_id d)]. split; [lia|]. done.
Qed.

(** X14.  A failing update or delete stops at the first call that fails
    and returns that call's error: every call before it went through, no
    call is issued after it (no retry), and the rest of the transport script
    is left untouched.  Update issues at most two calls, Delete at most
    three. *)
Theorem failing_hook_stops_at_first_fault
    (HasChange : ResourceData → string → bool)
    (d d' : ResourceData) (m m' : NexusClient) (e : error) :
  (resourceSecurityUserRoleUpdate HasChange d m = (Some e, d', m') →
     ∃ (k : nat) (new : list Request),
       k ≤ 1
       ∧ faults m = replicate k None ++ Some e :: faults m'
       ∧ requests m' = requests m ++ new ∧ length new = S k)
  ∧ (resourceSecurityUserRoleDelete HasChange d m = Returned (Some e, d', m') →
       ∃ (k : nat) (new : list Request),
         k ≤ 2
         ∧ faults m = replicate k None ++ Some e :: faults m'
         ∧ requests m' = requests m ++ new ∧ length new = S k).
Proof.
  split; [apply Update_stops|].
  unfold resourceSecurityUserRoleDelete, nexus.Get.
  destruct (next_fault m) as [e0|] eqn:Hf.
  - intros [= -> <- <-]. exists 0, [ReqGet (rd_id d)].
    split; [lia|]. split; [by apply fault_head|done].
  - destruct (users m !! rd_id d) as [apiUser|]; [|done]. cbn zeta.
    destruct (resourceSecurityUserRoleUpdate _ _ _) as [[[e1|] d1] m1] eqn:HUpdate;
      [|done].
    intros [= -> <- <-].
    apply Update_stops in HUpdate as (k & new & Hk & Hfs & Hreq & Hlen).
    exists (S k), (ReqGet (rd_id d) :: new). split; [lia|].
    split; [|split].
    + apply no_fault_head; [done|exact Hfs|]. by destruct k.
    + rewrite Hreq. simpl. by rewrite <- app_assoc.
    + simpl. by rewrite Hlen.
Qed.

Lemma failing_hook_stops_at_first_fault_witness :
  ∃ (k : nat) (new : list Request),
    k ≤ 2
    ∧ faults (server_with ["admin"; "dev"]%string
                [None; Some timeout; Some (Err "never reached")])
      = replicate k None ++ Some timeout :: [Some (Err "never reached")]
    ∧ [ReqGet "jdoe"; ReqGet "jdoe"]
      = requests (server_with ["admin"; "dev"]%string
                    [None; Some timeout; Some (Err "never reached")]) ++ new
    ∧ length new = S k.
Proof.
  exact (proj2 (failing_hook_stops_at_first_fault unchanged
                  (jdoe_data ["dev"%string])
                  (Set_roles ["admin"%string] (jdoe_data ["dev"%string]))
                  (server_with ["admin"; "dev"]%string
                     [None; Some timeout; Some (Err "never reached")])
                  {| users := {[ "jdoe"%string := jdoe ["admin"; "dev"]%string ]};
                     faults := [Some (Err "never reached")];
                     requests := [ReqGet "jdoe"; ReqGet "jdoe"] |}
                  timeout)
           eq_refl).
Defined.

(** ** What the hooks leave alone *)

Lemma Read_client (d : ResourceData) (m : NexusClient) :
  (resourceSecurityUserRoleRead d m).2 = sent (ReqGet (rd_id d)) m.
Proof.
  destruct (resourceSecurityUserRoleRead d m) as [[err d'] m'] eqn:HRead.
  by apply Read_inv in HRead as [-> _].
Qed.

Lemma Update_other_users (HasChange : ResourceData → string → bool)
    (d : ResourceData) (m : NexusClient) (id' : string) :
  id' ≠ rd_id d →
  users (resourceSecurityUserRoleUpdate HasChange d m).2 !! id' = users m !! id'.
Proof.
  intros Hne. unfold resourceSecurityUserRoleUpdate, nexus.Update.
  destruct (HasChange d "roles"); [destruct (next_fault m)|]; try done.
  - rewrite Read_client. simpl. by rewrite lookup_insert_ne.
  - by rewrite Read_client.
Qed.

(** X15.  Read and Exists never change the server's user table.  Update
    and Delete change at most the user stored under the resource id: every
    other user is after the hook what it was before. *)
Theorem hooks_leave_other_users (HasChange : ResourceData → string → bool)
    (d : ResourceData) (m : NexusClient) :
  users (resourceSecurityUserRoleRead d m).2 = users m
  ∧ users (resourceSecurityUserRoleExists d m).2 = users m
  ∧ ∀ id' : string, id' ≠ rd_id d →
      users (resourceSecurityUserRoleUpdate HasChange d m).2 !! id' = users m !! id'
      ∧ ∀ r : hook_result,
          resourceSecurityUserRoleDelete HasChange d m = Returned r →
          users r.2 !! id' = users m !! id'.
Proof.
  split; [by rewrite Read_client|]. split.
  - unfold resourceSecurityUserRoleExists, nexus.Get.
    destruct (next_fault m); [done|]. by destruct (users m !! rd_id d).
  - intros id' Hne. split; [by apply Update_other_users|].
    intros r. unfold resourceSecurityUserRoleDelete, nexus.Get.
    destruct (next_fault m); [by intros [= <-]|].
    destruct (users m !! rd_id d) as [apiUser|]; [|done]. cbn zeta.
    match goal with
    | |- context [resourceSecurityUserRoleUpdate HasChange ?d1 ?m1] =>
        pose proof (Update_other_users HasChange d1 m1 id' Hne) as HUpdate;
        destruct (resourceSecurityUserRoleUpdate HasChange d1 m1)
          as [[[e1|] d2] m2]
    end; intros [= <-]; exact HUpdate.
Qed.

(** ** The create hook: the paths the claims leave out *)

(** X16.  A create whose fetch fails stops there: it returns the error,
    has issued the fetch and no write, and leaves the resource data with the
    id set to the userid and every declared attribute as it was. *)
Theorem create_fetch_failure
    (userRead : ResourceData → NexusClient → hook_result)
    (d : ResourceData) (m : NexusClient) (e : error) :
  next_fault m = Some e →
  resourceSecurityUserRoleCreate userRead d m
  = (Some e, SetId (rd_userid d) d, sent (ReqGet (rd_userid d)) m).
Proof.
  intros Hf. unfold resourceSecurityUserRoleCreate.
  pose proof (Read_cases (SetId (rd_userid d) d) m) as HRead.
  rewrite Hf in HRead. by rewrite HRead.
Qed.

Lemma create_fetch_failure_witness :
  resourceSecurityUserRoleCreate resourceSecurityUserRoleRead
    (jdoe_data ["dev"%string]) (server_with ["admin"%string] [Some timeout])
  = (Some timeout, SetId (rd_userid (jdoe_data ["dev"%string])) (jdoe_data ["dev"%string]),
     sent (ReqGet (rd_userid (jdoe_data ["dev"%string])))
       (server_with ["admin"%string] [Some timeout])).
Proof.
  apply (create_fetch_failure resourceSecurityUserRoleRead
           (jdoe_data ["dev"%string]) (server_with ["admin"%string] [Some timeout])
           timeout).
  reflexivity.
Defined.

(** X17.  A create for a userid the server does not know: the read clears
    the resource id without error, so the write that follows goes out under
    the empty id; it carries the declared roles.  When that write fails its
    error is returned with the id still empty; when it goes through the id
    is set to the userid and the hook ends with the user resource's read. *)
Theorem create_unknown_user_writes_under_empty_id
    (userRead : ResourceData → NexusClient → hook_result)
    (d : ResourceData) (m : NexusClient) :
  next_fault m = None →
  users m !! rd_userid d = None →
  ∃ m' : NexusClient,
    requests m'
    = requests m ++ [ReqGet (rd_userid d);
                     ReqUpdate "" (getSecurityUserRoleFromResourceData d)]
    ∧ match next_fault (sent (ReqGet (rd_userid d)) m) with
      | Some e =>
          resourceSecurityUserRoleCreate userRead d m = (Some e, SetId "" d, m')
      | None =>
          resourceSecurityUserRoleCreate userRead d m
          = userRead (SetId (rd_userid d) d) m'
      end.
Proof.
  intros Hf Huser. unfold resourceSecurityUserRoleCreate.
  pose proof (Read_cases (SetId (rd_userid d) d) m) as HRead.
  rewrite Hf in HRead. simpl in HRead. rewrite Huser in HRead. rewrite HRead.
  unfold nexus.Update. simpl rd_id.
  destruct (next_fault (sent (ReqGet (rd_userid d)) m)) as [e|].
  - eexists. split; [|reflexivity]. simpl. by rewrite <- app_assoc.
  - eexists. split; [|reflexivity]. simpl. by rewrite <- app_assoc.
Qed.

Lemma create_unknown_user_writes_under_empty_id_witness :
  ∃ m' : NexusClient,
    requests m'
    = requests (server_without [None; Some timeout])
      ++ [ReqGet (rd_userid (jdoe_data ["dev"%string]));
          ReqUpdate "" (getSecurityUserRoleFromResourceData (jdoe_data ["dev"%string]))]
    ∧ resourceSecurityUserRoleCreate resourceSecurityUserRoleRead
        (jdoe_data ["dev"%string]) (server_without [None; Some timeout])
      = (Some timeout, SetId "" (jdoe_data ["dev"%string]), m').
Proof.
  apply (create_unknown_user_writes_under_empty_id resourceSecurityUserRoleRead
           (jdoe_data ["dev"%string]) (server_without [None; Some timeout]));
    reflexivity.
Defined.

(** ** The exists hook: equality, not containment *)

(** X18.  As soon as the user holds one role the resource does not declare,
    the exists hook answers false, even when every declared role is held:
    the hook compares the whole remote collection with the declared roles. *)
Theorem exists_false_on_foreign_role
    (d : ResourceData) (m : NexusClient) (apiUser : User) (role : string) :
  next_fault m = None →
  users m !! rd_id d = Some apiUser →
  role ∈ Roles apiUser →
  role ∉ rd_roles d →
  (resourceSecurityUserRoleExists d m).1 = (false, None).
Proof.
  intros Hf Huser Hin Hout.
  unfold resourceSecurityUserRoleExists, nexus.Get. rewrite Hf, Huser.
  cbn [fst]. f_equal.
  destruct (computeExistence _ _) eqn:Hc; [|done].
  apply computeExistence_true in Hc as [_ Hall].
  rewrite Forall_forall in Hall. specialize (Hall role Hin).
  cbn [Roles getSecurityUserRoleFromResourceData] in Hall.
  unfold Get_roles_List in Hall. by apply elem_of_elements in Hall.
Qed.

Lemma exists_false_on_foreign_role_witness :
  (resourceSecurityUserRoleExists (jdoe_data ["dev"%string])
     (server_with ["admin"; "dev"]%string [])).1
  = (false, None).
Proof.
  apply (exists_false_on_foreign_role (jdoe_data ["dev"%string])
           (server_with ["admin"; "dev"]%string [])
           (jdoe ["admin"; "dev"]%string) "admin"%string).
  - reflexivity.
  - reflexivity.
  - left.
  - simpl. rewrite elem_of_union, elem_of_singleton, elem_of_empty.
    intros [Heq|[]]. discriminate Heq.
Defined.
